(** * allzpark GUI widgets: a shallow embedding

    The widgets of [allzpark/gui/widgets.py] and
    [allzpark/gui2/widgets_avalon.py] are embedded as state records and
    functions over them.  Qt objects are represented by the part of their
    state the Python code reads or writes; logging goes to a list of
    structured records kept in the state of the widget that logs. *)

From Stdlib Require Import ZArith Lia.
From stdpp Require Import base option list strings gmap sets.

Set Warnings "-register-all,-clear-no-such-hyp".

Local Open Scope string_scope.
Local Open Scope Z_scope.

(** ** Logging *)

Inductive level := DEBUG | INFO | WARNING | ERROR | CRITICAL.

(** The messages handed to [log]; the f-string arguments are kept as
    fields instead of being rendered. *)
Inductive message :=
| InvalidSlideDirection (direction : string)
| UnknownRootLevel (name : string)
| NoWidgetForBackend (name : string)
| FailedToGetWidget (name err : string)
| NoValidBackend.

Record log_record := LogRecord { lvl : level; msg : message }.

(** ** Exceptions and the state-and-exception monad *)

Inductive exn :=
| AttributeError (obj attr : string)
| TypeError (what : string)
| AssertionError
| ImportError (what : string).

(** [str(e)] *)
Definition str (e : exn) : string :=
  match e with
  | AttributeError obj attr =>
      "'" ++ obj ++ "' object has no attribute '" ++ attr ++ "'"
  | TypeError what => what
  | AssertionError => ""
  | ImportError what => what
  end.

Inductive result (A : Type) :=
| Return (a : A)
| Raise (e : exn).
Arguments Return {A} a.
Arguments Raise {A} e.

(** A method of a widget with state [S]: it ends normally or by an
    exception, and the state it has reached is kept in both cases. *)
Definition M (S A : Type) : Type := S -> result A * S.

Definition ret {S A} (a : A) : M S A := fun s => (Return a, s).
Definition raise {S A} (e : exn) : M S A := fun s => (Raise e, s).
Definition bind {S A B} (m : M S A) (k : A -> M S B) : M S B :=
  fun s => match m s with
           | (Return a, s') => k a s'
           | (Raise e, s') => (Raise e, s')
           end.
Definition get {S} : M S S := fun s => (Return s, s).
Definition modify {S} (f : S -> S) : M S unit := fun s => (Return tt, f s).
Definition lift_result {S A} (r : result A) : M S A := fun s => (r, s).

Notation "'let*' x ':=' m 'in' k" := (bind m (fun x => k))
  (at level 10, x name, m at level 100, k at level 200).
Notation "m ';;' k" := (bind m (fun _ => k))
  (at level 100, k at level 200, right associativity).

(** ** BusyWidget *)

Module BusyWidget.

(** A QObject with its children, as [QObject.children()] lists them. *)
Inductive qobject := QObject (oid : nat) (children : list qobject).

Definition oid (w : qobject) : nat := let 'QObject i _ := w in i.
Definition children (w : qobject) : list qobject := let 'QObject _ cs := w in cs.

(** The generator [iter_children] of [_block_children]: every child,
    each followed by its own descendants. *)
Fixpoint iter_children (w : qobject) : list qobject :=
  match w with
  | QObject _ cs =>
      (fix go (l : list qobject) : list qobject :=
         match l with
         | [] => []
         | c :: l' => c :: iter_children c ++ go l'
         end) cs
  end.

Inductive cursor := BusyCursor.

(** [filtered] is the set of objects on which the shared
    [BusyEventFilterSingleton] is installed, and [override_cursors] is the
    application's stack of override cursors. *)
Record t := mk {
  self : qobject;
  _busy_works : gset string;
  _entered : bool;
  filtered : gset nat;
  override_cursors : list cursor;
}.

Definition set_busy_works (s : gset string) (b : t) : t :=
  mk (self b) s (_entered b) (filtered b) (override_cursors b).
Definition set_entered (e : bool) (b : t) : t :=
  mk (self b) (_busy_works b) e (filtered b) (override_cursors b).
Definition set_filtered (f : gset nat) (b : t) : t :=
  mk (self b) (_busy_works b) (_entered b) f (override_cursors b).
Definition set_override_cursors (c : list cursor) (b : t) : t :=
  mk (self b) (_busy_works b) (_entered b) (filtered b) c.

(** [__init__]: no outstanding work, pointer not known to be inside. *)
Definition init (w : qobject) (installed : gset nat) (cs : list cursor) : t :=
  mk w ∅ false installed cs.

(** Truth value of a Python set: non-empty. *)
Definition truthy (s : gset string) : bool := bool_decide (s ≠ ∅).

Definition _over_busy_cursor (over : bool) (b : t) : t :=
  if over then set_override_cursors (BusyCursor :: override_cursors b) b
  else set_override_cursors (tail (override_cursors b)) b.

(** [installEventFilter] / [removeEventFilter] of the shared filter. *)
Definition action (block : bool) (f : gset nat) (w : qobject) : gset nat :=
  if block then {[ oid w ]} ∪ f else f ∖ {[ oid w ]}.

Definition _block_children (block : bool) (b : t) : t :=
  let f := foldl (action block) (filtered b) (iter_children (self b)) in
  set_filtered (action block f (self b)) b.

Definition set_overwhelmed (worker : string) (b : t) : t :=
  let b :=
    if negb (truthy (_busy_works b)) then
      let b := if _entered b then _over_busy_cursor true b else b in
      _block_children true b
    else b in
  set_busy_works ({[ worker ]} ∪ _busy_works b) b.

Definition pop_overwhelmed (worker : string) (b : t) : t :=
  let b :=
    if bool_decide (worker ∈ _busy_works b)
    then set_busy_works (_busy_works b ∖ {[ worker ]}) b
    else b in
  if negb (truthy (_busy_works b)) then
    let b := if _entered b then _over_busy_cursor false b else b in
    _block_children false b
  else b.

Definition enterEvent (b : t) : t :=
  let b := if truthy (_busy_works b) then _over_busy_cursor true b else b in
  set_entered true b.

Definition leaveEvent (b : t) : t :=
  let b := if truthy (_busy_works b) then _over_busy_cursor false b else b in
  set_entered false b.

(** The widget and all its descendants, and whether any of them still
    carries the input-blocking filter. *)
Definition subtree (b : t) : list nat :=
  oid (self b) :: map oid (iter_children (self b)).

Definition blocked (b : t) : bool :=
  bool_decide (Exists (fun o => o ∈ filtered b) (subtree b)).

End BusyWidget.


(** ** SlidePageWidget *)

Module SlidePageWidget.

Record QPoint := mkPoint { x : Z; y : Z }.

Definition padd (p q : QPoint) : QPoint := mkPoint (x p + x q) (y p + y q).
Definition psub (p q : QPoint) : QPoint := mkPoint (x p - x q) (y p - y q).

(** A page of the stack: its geometry and whether it is shown. *)
Record page := mkPage {
  pos : QPoint;
  width : Z;
  height : Z;
  visible : bool;
}.

Inductive easing := OutQuad.

(** A [QPropertyAnimation] on the [pos] property of the page at index
    [target] ([None] when the stack has no current widget). *)
Record animation := mkAnimation {
  target : option nat;
  duration : Z;
  startValue : QPoint;
  endValue : QPoint;
  easingCurve : easing;
}.

(** A started [QParallelAnimationGroup]; [finished] is connected to
    [slide_finished], which makes page [new_page] the current one. *)
Record animation_group := mkGroup {
  animations : list animation;
  new_page : nat;
}.

Record t := mk {
  pages : list page;
  currentIndex : Z;
  frame_width : Z;
  frame_height : Z;
  raised : option nat;
  running : list animation_group;
  logs : list log_record;
}.

Definition set_pages (ps : list page) (s : t) : t :=
  mk ps (currentIndex s) (frame_width s) (frame_height s) (raised s)
     (running s) (logs s).
Definition set_currentIndex (i : Z) (s : t) : t :=
  mk (pages s) i (frame_width s) (frame_height s) (raised s)
     (running s) (logs s).
Definition set_raised (r : option nat) (s : t) : t :=
  mk (pages s) (currentIndex s) (frame_width s) (frame_height s) r
     (running s) (logs s).
Definition set_running (r : list animation_group) (s : t) : t :=
  mk (pages s) (currentIndex s) (frame_width s) (frame_height s) (raised s)
     r (logs s).
Definition log (l : level) (m : message) (s : t) : t :=
  mk (pages s) (currentIndex s) (frame_width s) (frame_height s) (raised s)
     (running s) (logs s ++ [LogRecord l m]).

Definition directions : gmap string QPoint :=
  <["left" := mkPoint (-1) 0]>
  (<["right" := mkPoint 1 0]>
  (<["up" := mkPoint 0 1]>
  (<["down" := mkPoint 0 (-1)]> ∅))).

(** [QStackedWidget.widget(index)]: the page and its position in the
    stack, [None] when the index is out of range. *)
Definition widget (s : t) (index : Z) : option (nat * page) :=
  if index <? 0 then None
  else p ← pages s !! Z.to_nat index; Some (Z.to_nat index, p).

Definition currentWidget (s : t) : option (nat * page) :=
  widget s (currentIndex s).

Definition slide_view (index : Z) (direction : string) : M t unit :=
  let* s := get in
  if currentIndex s =? index then ret tt
  else
    match directions !! direction with
    | None => modify (log WARNING (InvalidSlideDirection direction))
    | Some offset_direction =>
        let width := frame_width s in
        let height := frame_height s in
        let offset :=
          mkPoint (x offset_direction * width) (y offset_direction * height) in
        match widget s index with
        | None => raise (AttributeError "NoneType" "setGeometry")
        | Some (i, new_page) =>
            (* setGeometry(0, 0, width, height) *)
            let new_page := mkPage (mkPoint 0 0) width height (visible new_page) in
            let curr_pos := pos new_page in
            (* move(curr_pos + offset); show(); raise_() *)
            let new_page :=
              mkPage (padd curr_pos offset) (SlidePageWidget.width new_page)
                     (SlidePageWidget.height new_page) true in
            modify (set_pages (<[i := new_page]> (pages s)));;
            modify (set_raised (Some i));;
            let* s := get in
            let current_page := fst <$> currentWidget s in
            let anim_old :=
              mkAnimation current_page 250 curr_pos (psub curr_pos offset) OutQuad in
            let anim_new :=
              mkAnimation (Some i) 250 (padd curr_pos offset) curr_pos OutQuad in
            let anim_group := mkGroup [anim_old; anim_new] i in
            (* anim_group.start() *)
            modify (set_running (running s ++ [anim_group]))
        end
    end.

(** The slot connected to [anim_group.finished]: the animated pages are
    at their end values and [setCurrentWidget(new_page)] switches the
    stack, which hides the page shown before. *)
Definition move_to (a : animation) (ps : list page) : list page :=
  match target a with
  | None => ps
  | Some i =>
      match ps !! i with
      | None => ps
      | Some p => <[i := mkPage (endValue a) (width p) (height p) (visible p)]> ps
      end
  end.

Definition hide (i : nat) (ps : list page) : list page :=
  match ps !! i with
  | None => ps
  | Some p => <[i := mkPage (pos p) (width p) (height p) false]> ps
  end.

Definition slide_finished (g : animation_group) (s : t) : t :=
  let ps := foldr move_to (pages s) (animations g) in
  let ps :=
    match currentWidget s with
    | Some (i, _) => if decide (i = new_page g) then ps else hide i ps
    | None => ps
    end in
  set_currentIndex (Z.of_nat (new_page g)) (set_pages ps s).

End SlidePageWidget.

(** ** AvalonWidget *)

Module AvalonWidget.

(** The scope variants of the avalon backend that [enter_workspace]
    dispatches on. *)
Inductive scope :=
| Entrance (name : string)
| Project (name : string) (tasks : list string)
| Asset (name : string)
| Task (name : string).

Record t := mk {
  _entrance : option scope;
  _tasks : list string;
  _slider : SlidePageWidget.t;
  _page : Z;
}.

Definition set_entrance (e : option scope) (a : t) : t :=
  mk e (_tasks a) (_slider a) (_page a).
Definition set_tasks (ts : list string) (a : t) : t :=
  mk (_entrance a) ts (_slider a) (_page a).
Definition set_slider (sl : SlidePageWidget.t) (a : t) : t :=
  mk (_entrance a) (_tasks a) sl (_page a).
Definition set_page_field (p : Z) (a : t) : t :=
  mk (_entrance a) (_tasks a) (_slider a) p.

Section Slider.

(** [SlidePageWidget] is imported from [gui2/common.py]; its
    [slide_view] is taken as given here.  [SlidePageWidget.slide_view]
    above, the class of the same name in [gui/widgets.py], is one
    instance. *)
Variable slide_view : Z -> string -> M SlidePageWidget.t unit.

(** Run a method of the slider on the [_slider] field. *)
Definition on_slider {A} (m : M SlidePageWidget.t A) : M t A :=
  fun a => let '(r, sl) := m (_slider a) in (r, set_slider sl a).

Definition set_page (page : Z) : M t unit :=
  let* a := get in
  let current := SlidePageWidget.currentIndex (_slider a) in
  if (current =? page) && (_page a =? page) then ret tt
  else
    let direction := if page >? current then "right" else "left" in
    modify (set_page_field page);;
    on_slider (slide_view page direction).

Definition enter_workspace (sc : scope) : M t unit :=
  match sc with
  | Entrance _ => modify (set_entrance (Some sc));; set_page 0
  | Project _ tasks => set_page 1;; modify (set_tasks tasks)
  | Asset _ => ret tt
  | Task _ => ret tt
  end.

End Slider.

End AvalonWidget.

(** ** WorkspaceWidget *)

Module WorkspaceWidget.

(** An [AbstractScope]: its name and the scope it hangs under. *)
Inductive scope := Scope (name : string) (upstream : option scope).

Definition name (sc : scope) : string := let 'Scope n _ := sc in n.
Definition upstream (sc : scope) : option scope := let 'Scope _ u := sc in u.

(** What looking up an attribute of an object gives, as far as
    [callable] and a call can tell. *)
Inductive attr := Missing | NotCallable | Callable.

(** An instance of a backend widget class: its three essential signals
    and its three essential methods. *)
Record backend_widget := mkWidget {
  cls_name : string;
  tools_requested : bool;
  workspace_changed : bool;
  workspace_refreshed : bool;
  enter_workspace : attr;
  update_workspace : attr;
  on_cache_cleared : attr;
}.

(** A backend widget class: its [icon_path] attribute, when it has one,
    and what calling the class gives. *)
Record widget_cls := mkCls {
  icon_path : option string;
  construct : result backend_widget;
}.

(** The pages of [entrances]: the plain [QWidget] at index 0 and the
    backend widgets above it. *)
Inductive page := VoidPage | BackendPage (w : backend_widget).

Inductive signal := backend_changed (name : string).

Record t := mk {
  _stack : list page;
  stack_currentIndex : Z;
  _combo : list (string * string);
  combo_currentIndex : Z;
  signalsBlocked : bool;
  emitted : list signal;
  logs : list log_record;
}.

Definition set_stack (ps : list page) (s : t) : t :=
  mk ps (stack_currentIndex s) (_combo s) (combo_currentIndex s)
     (signalsBlocked s) (emitted s) (logs s).
Definition set_stack_currentIndex (i : Z) (s : t) : t :=
  mk (_stack s) i (_combo s) (combo_currentIndex s)
     (signalsBlocked s) (emitted s) (logs s).
Definition set_combo (items : list (string * string)) (i : Z) (s : t) : t :=
  mk (_stack s) (stack_currentIndex s) items i
     (signalsBlocked s) (emitted s) (logs s).
Definition blockSignals (b : bool) (s : t) : t :=
  mk (_stack s) (stack_currentIndex s) (_combo s) (combo_currentIndex s)
     b (emitted s) (logs s).
Definition log (l : level) (m : message) (s : t) : t :=
  mk (_stack s) (stack_currentIndex s) (_combo s) (combo_currentIndex s)
     (signalsBlocked s) (emitted s) (logs s ++ [LogRecord l m]).

(** A signal of a widget whose signals are blocked is not delivered. *)
Definition emit (sg : signal) (s : t) : t :=
  if signalsBlocked s then s
  else mk (_stack s) (stack_currentIndex s) (_combo s) (combo_currentIndex s)
          (signalsBlocked s) (emitted s ++ [sg]) (logs s).

(** [__init__]: the void page alone in the stack, an empty selector. *)
Definition init : t := mk [VoidPage] 0 [] (-1) false [] [].

Definition _on_backend_changed (name : string) : M t unit :=
  modify (emit (backend_changed name)).

(** [QComboBox.findText]: the index of the first item with that text,
    -1 when there is none. *)
Fixpoint findText (items : list (string * string)) (text : string) : Z :=
  match items with
  | [] => -1
  | (_, t) :: rest =>
      if decide (t = text) then 0
      else let k := findText rest text in if k <? 0 then -1 else k + 1
  end.

Definition count {A} (l : list A) : Z := Z.of_nat (length l).

Definition widget (s : t) (index : Z) : option (nat * page) :=
  if index <? 0 then None
  else p ← _stack s !! Z.to_nat index; Some (Z.to_nat index, p).

Definition currentWidget (s : t) : option (nat * page) :=
  widget s (stack_currentIndex s).

(** [QStackedWidget.setCurrentIndex]: ignored when no page has that
    index. *)
Definition setCurrentIndex (index : Z) (s : t) : t :=
  match widget s index with
  | None => s
  | Some _ => set_stack_currentIndex index s
  end.

(** [QStackedWidget.addWidget] on a stack that is not empty. *)
Definition addWidget (w : backend_widget) : M t unit :=
  modify (fun s => set_stack (_stack s ++ [BackendPage w]) s).

Definition currentText (s : t) : string :=
  match (if combo_currentIndex s <? 0 then None
         else _combo s !! Z.to_nat (combo_currentIndex s)) with
  | Some (_, text) => text
  | None => ""
  end.

(** [QComboBox.addItem]: the first item of an empty box becomes the
    current one, and [currentTextChanged] reaches the connected
    [_on_backend_changed]. *)
Definition addItem (icon text : string) : M t unit :=
  let* s := get in
  if combo_currentIndex s <? 0 then
    modify (set_combo (_combo s ++ [(icon, text)]) 0);;
    _on_backend_changed text
  else
    modify (set_combo (_combo s ++ [(icon, text)]) (combo_currentIndex s)).

(** What importing the two backend modules gives in the running
    installation. *)
Record imports := mkImports {
  widgets_avalon : result widget_cls;
  widgets_sg_sync : result widget_cls;
}.

(** [_load_backends]: each getter is given by the outcome of calling
    it. *)
Definition _load_backends (env : imports) : gmap string (result widget_cls) :=
  <["avalon" := widgets_avalon env]> (<["sg_sync" := widgets_sg_sync env]> ∅).

Definition connect (w : backend_widget) (has : bool) (signal_name : string)
  : M t unit :=
  if has then ret tt else raise (AttributeError (cls_name w) signal_name).

Definition assert_callable (w : backend_widget) (a : attr) (method : string)
  : M t unit :=
  match a with
  | Missing => raise (AttributeError (cls_name w) method)
  | NotCallable => raise AssertionError
  | Callable => ret tt
  end.

(** The body of the [for name in names] loop. *)
Definition register_backend (possible_backends : gmap string (result widget_cls))
    (name : string) : M t unit :=
  match possible_backends !! name with
  | None => modify (log ERROR (NoWidgetForBackend name))
  | Some widget_getter =>
      match widget_getter with
      | Raise e => modify (log ERROR (FailedToGetWidget name (str e)))
      | Return widget_cls =>
          let w_icon := default ":/icons/server.svg" (icon_path widget_cls) in
          let* widget := lift_result (construct widget_cls) in
          connect widget (tools_requested widget) "tools_requested";;
          connect widget (workspace_changed widget) "workspace_changed";;
          connect widget (workspace_refreshed widget) "workspace_refreshed";;
          assert_callable widget (enter_workspace widget) "enter_workspace";;
          assert_callable widget (update_workspace widget) "update_workspace";;
          assert_callable widget (on_cache_cleared widget) "on_cache_cleared";;
          addWidget widget;;
          addItem w_icon name
      end
  end.

Fixpoint register_each (possible_backends : gmap string (result widget_cls))
    (names : list string) : M t unit :=
  match names with
  | [] => ret tt
  | name :: rest =>
      register_backend possible_backends name;;
      register_each possible_backends rest
  end.

Definition register_backends (env : imports) (names : list string) : M t unit :=
  let* s := get in
  if count (_stack s) >? 1 then ret tt
  else
    let possible_backends := _load_backends env in
    modify (blockSignals true);;
    register_each possible_backends names;;
    modify (blockSignals false);;
    let* s := get in
    if negb (count (_combo s) =? 0) then _on_backend_changed (currentText s)
    else modify (log ERROR NoValidBackend).

Section Backend.

(** What [enter_workspace(scope, backend_changed)] of a backend widget
    does is the backend's business: it returns the widget as the call
    leaves it, or raises. *)
Variable backend_enter_workspace :
  backend_widget -> scope -> bool -> result backend_widget.

Definition call_enter_workspace (current : option (nat * page))
    (sc : scope) (changed : bool) : M t unit :=
  match current with
  | None => raise (AttributeError "NoneType" "enter_workspace")
  | Some (_, VoidPage) => raise (AttributeError "QWidget" "enter_workspace")
  | Some (i, BackendPage w) =>
      match enter_workspace w with
      | Missing => raise (AttributeError (cls_name w) "enter_workspace")
      | NotCallable => raise (TypeError "object is not callable")
      | Callable =>
          let* w' := lift_result (backend_enter_workspace w sc changed) in
          modify (fun s => set_stack (<[i := BackendPage w']> (_stack s)) s)
      end
  end.

Definition on_workspace_entered (sc : scope) : M t unit :=
  let* changed :=
    match upstream sc with
    | None =>
        let* s := get in
        let index := findText (_combo s) (name sc) in
        (if index <? 0 then modify (log CRITICAL (UnknownRootLevel (name sc)))
         else ret tt);;
        let index := index + 1 in
        let* s := get in
        if negb (index =? stack_currentIndex s)
        then modify (setCurrentIndex index);; ret true
        else ret false
    | Some _ => ret false
    end in
  let* s := get in
  call_enter_workspace (currentWidget s) sc changed.

End Backend.

End WorkspaceWidget.

(** ** ToolContextWidget *)

Module ToolContextWidget.

(** A resolved context, with the mapping its [get_environ()] returns. *)
Record context := mkContext {
  ctx_id : nat;
  get_environ : gmap string string;
}.

Record SuiteTool := mkTool {
  name : string;
  ctx_name : string;
  context_of : context;
  label : string;
}.

(** [dict.update]: every key of [other] is set in [d]. *)
Definition update (d other : gmap string string) : gmap string string :=
  map_fold (fun k v acc => <[k := v]> acc) d other.

Section Inspector.

(** [lib.ContextEnvInspector.inspect] *)
Context {Note : Type} (inspect : context -> Note).

(** [_context]: the context loaded in the context view; [_environ] and
    [_note]: what the environment model was given by [load] and
    [note]; [_launcher]: the tool set on the launcher. *)
Record t := mk {
  _context : option context;
  _environ : gmap string string;
  _note : option Note;
  _launcher : option SuiteTool;
}.

Definition on_tool_selected (suite_tool : SuiteTool)
    (work_env : gmap string string) (w : t) : t :=
  let context := context_of suite_tool in
  let env := get_environ context in
  let env := update env work_env in
  mk (Some context) env (Some (inspect context)) (Some suite_tool).

Definition on_tool_cleared (w : t) : t :=
  mk None ∅ (_note w) None.

End Inspector.

End ToolContextWidget.

(** ** ResolvedEnvironment *)

Module ResolvedEnvironment.

Inductive filter_mode := ByKey | ByValue.

(** The tree of the view: every row collapsed, every row expanded, or
    neither. *)
Inductive expansion := Collapsed | Expanded | Mixed.

Definition Unchecked : Z := 0.
Definition Checked : Z := 2.

Record t := mk {
  search_text : string;
  switch_text : string;
  mode : filter_mode;
  inverse : Z;
  filterRegExp : string;
  timer : option Z;
  tree : expansion;
  extension_resets : nat;
}.

Definition set_search_text (x : string) (r : t) : t :=
  mk x (switch_text r) (mode r) (inverse r) (filterRegExp r) (timer r)
     (tree r) (extension_resets r).
Definition set_switch (x : string) (m : filter_mode) (r : t) : t :=
  mk (search_text r) x m (inverse r) (filterRegExp r) (timer r)
     (tree r) (extension_resets r).
Definition inverse_filter (state : Z) (r : t) : t :=
  mk (search_text r) (switch_text r) (mode r) state (filterRegExp r) (timer r)
     (tree r) (extension_resets r).
Definition setFilterRegExp (x : string) (r : t) : t :=
  mk (search_text r) (switch_text r) (mode r) (inverse r) x (timer r)
     (tree r) (extension_resets r).
Definition set_timer (x : option Z) (r : t) : t :=
  mk (search_text r) (switch_text r) (mode r) (inverse r) (filterRegExp r) x
     (tree r) (extension_resets r).
Definition set_tree (x : expansion) (r : t) : t :=
  mk (search_text r) (switch_text r) (mode r) (inverse r) (filterRegExp r)
     (timer r) x (extension_resets r).
Definition expandAll : t -> t := set_tree Expanded.
Definition collapseAll : t -> t := set_tree Collapsed.
Definition reset_extension (r : t) : t :=
  mk (search_text r) (switch_text r) (mode r) (inverse r) (filterRegExp r)
     (timer r) (tree r) (S (extension_resets r)).

Definition len (x : string) : Z := Z.of_nat (String.length x).

Definition _on_searched (r : t) : t := set_timer (Some 400) r.

Definition _on_switched (state : Z) (r : t) : t :=
  if state =? Checked then set_switch "On Key" ByKey r
  else set_switch "On Value" ByValue r.

Definition _on_inverse (state : Z) (r : t) : t :=
  let r := inverse_filter state r in
  let text := search_text r in
  let r := if len text >? 1 then expandAll r else collapseAll r in
  reset_extension r.

Definition _deferred_search (r : t) : t :=
  let text := search_text r in
  let r := setFilterRegExp text r in
  let r := if len text >? 1 then expandAll r else collapseAll r in
  reset_extension r.

(** [__init__], which ends by checking the switch. *)
Definition init : t :=
  _on_switched Checked (mk "" "" ByKey Unchecked "" None Collapsed 0).

(** The user edits the search line: [textChanged] reaches
    [_on_searched]. *)
Definition textChanged (x : string) (r : t) : t :=
  _on_searched (set_search_text x r).

(** The single-shot timer fires: [timeout] reaches [_deferred_search]. *)
Definition timeout (r : t) : t :=
  match timer r with
  | None => r
  | Some _ => _deferred_search (set_timer None r)
  end.

(** What the length of the search text asks of the tree. *)
Definition expected (r : t) : expansion :=
  if len (search_text r) >? 1 then Expanded else Collapsed.

End ResolvedEnvironment.

(** ** Outcomes of loading a backend *)

Module Backends.
Import WorkspaceWidget.

(** The error [register_backends] logs for a name that has no getter
    or whose getter raises; [None] for a name whose getter returns. *)
Definition load_failure (env : imports) (name : string) : option message :=
  match _load_backends env !! name with
  | None => Some (NoWidgetForBackend name)
  | Some (Raise e) => Some (FailedToGetWidget name (str e))
  | Some (Return _) => None
  end.

(** The instance of a class that can be constructed and has the
    essential signals and methods. *)
Definition usable (c : widget_cls) : option backend_widget :=
  match construct c with
  | Raise _ => None
  | Return w =>
      if tools_requested w && workspace_changed w && workspace_refreshed w
      then
        match enter_workspace w, update_workspace w, on_cache_cleared w with
        | Callable, Callable, Callable => Some w
        | _, _, _ => None
        end
      else None
  end.

(** The selector item and the page a name is registered with. *)
Definition registers (env : imports) (name : string)
  : option ((string * string) * backend_widget) :=
  match _load_backends env !! name with
  | Some (Return c) =>
      w ← usable c; Some ((default ":/icons/server.svg" (icon_path c), name), w)
  | _ => None
  end.

(** Every name either fails to load or registers. *)
Definition all_settled (env : imports) (names : list string) : Prop :=
  Forall (fun n => is_Some (load_failure env n) \/ is_Some (registers env n)) names.

(** A widget as [__init__] leaves it, whatever was logged or emitted
    meanwhile. *)
Definition fresh (s : t) : Prop :=
  _stack s = [VoidPage] /\ _combo s = [] /\ combo_currentIndex s = -1 /\
  signalsBlocked s = false.

Definition items (env : imports) (names : list string) : list (string * string) :=
  omap (fun n => fst <$> registers env n) names.
Definition widgets (env : imports) (names : list string) : list backend_widget :=
  omap (fun n => snd <$> registers env n) names.
Definition errors (env : imports) (names : list string) : list log_record :=
  omap (fun n => LogRecord ERROR <$> load_failure env n) names.

(** The state the loop of [register_backends] reaches from [s] when
    every name is settled. *)
Definition registered (env : imports) (names : list string) (s : t) : t :=
  mk (_stack s ++ (BackendPage <$> widgets env names))
     (stack_currentIndex s)
     (_combo s ++ items env names)
     (if combo_currentIndex s <? 0
      then match items env names with [] => combo_currentIndex s | _ => 0 end
      else combo_currentIndex s)
     (signalsBlocked s) (emitted s) (logs s ++ errors env names).

Definition example_widget : backend_widget :=
  mkWidget "AvalonWidget" true true true Callable Callable Callable.

Definition example_imports : imports :=
  mkImports (Return (mkCls (Some ":/icons/avalon.svg") (Return example_widget)))
            (Raise (ImportError "No module named 'shotgun_api3'")).

End Backends.

(** ** Concrete widgets *)

Module Examples.

(** A busy widget with two children, one of which has a child. *)
Definition busy_widget : BusyWidget.t :=
  BusyWidget.init
    (BusyWidget.QObject 0
       [BusyWidget.QObject 1 [BusyWidget.QObject 2 []]; BusyWidget.QObject 3 []])
    ∅ [].

(** The same widget while the worker [resolve] is outstanding and the
    pointer is over it. *)
Definition busy_resolving : BusyWidget.t :=
  BusyWidget.set_overwhelmed "resolve" (BusyWidget.enterEvent busy_widget).

(** A slider of two pages showing the first, as [AvalonWidget] builds
    it. *)
Definition slider : SlidePageWidget.t :=
  SlidePageWidget.mk
    [SlidePageWidget.mkPage (SlidePageWidget.mkPoint 0 0) 320 480 true;
     SlidePageWidget.mkPage (SlidePageWidget.mkPoint 0 0) 320 480 false]
    0 320 480 None [] [].

Definition avalon : AvalonWidget.t := AvalonWidget.mk None [] slider 0.

End Examples.

(** ** Event sequences on a BusyWidget *)

Module BusyEvents.
Import BusyWidget.

(** What can reach a busy widget: the two slots and the two pointer
    events. *)
Inductive event :=
| SetOverwhelmed (worker : string)
| PopOverwhelmed (worker : string)
| Enter
| Leave.

Definition step (b : t) (e : event) : t :=
  match e with
  | SetOverwhelmed w => set_overwhelmed w b
  | PopOverwhelmed w => pop_overwhelmed w b
  | Enter => enterEvent b
  | Leave => leaveEvent b
  end.

Definition run (es : list event) (b : t) : t := foldl step b es.

(** The filter sits on the widget and all its descendants while work is
    outstanding, and on none of them otherwise. *)
Definition consistent (b : t) : Prop :=
  Forall (fun o => o ∈ filtered b <-> _busy_works b ≠ ∅) (subtree b).

End BusyEvents.

(** * Theorems *)

Module BusyWidgetFacts.
Import BusyWidget.

Lemma truthy_empty : truthy ∅ = false.
Proof. unfold truthy. by rewrite bool_decide_eq_false; intros H; apply H. Qed.

Lemma truthy_nonempty (s : gset string) : s ≠ ∅ -> truthy s = true.
Proof. intros H. unfold truthy. by apply bool_decide_eq_true. Qed.

Lemma foldl_install (l : list qobject) (f : gset nat) :
  foldl (action true) f l = list_to_set (map oid l) ∪ f.
Proof.
  revert f. induction l as [|c l IH]; intros f; simpl.
  - set_solver.
  - rewrite IH. unfold action. set_solver.
Qed.

Lemma foldl_remove (l : list qobject) (f : gset nat) :
  foldl (action false) f l = f ∖ list_to_set (map oid l).
Proof.
  revert f. induction l as [|c l IH]; intros f; simpl.
  - set_solver.
  - rewrite IH. unfold action. set_solver.
Qed.

Lemma block_filtered (b : t) :
  filtered (_block_children true b) = list_to_set (subtree b) ∪ filtered b.
Proof.
  unfold _block_children, subtree. simpl. rewrite foldl_install.
  unfold action. set_solver.
Qed.

Lemma unblock_filtered (b : t) :
  filtered (_block_children false b) = filtered b ∖ list_to_set (subtree b).
Proof.
  unfold _block_children, subtree. simpl. rewrite foldl_remove.
  unfold action. set_solver.
Qed.

Lemma unblock_not_blocked (b : t) : blocked (_block_children false b) = false.
Proof.
  unfold blocked. apply bool_decide_eq_false. rewrite Exists_exists.
  intros (o & Hin & Hf). rewrite unblock_filtered in Hf.
  change (subtree (_block_children false b)) with (subtree b) in Hin.
  set_solver.
Qed.

End BusyWidgetFacts.

Module BusyWidgetClaims.
Import BusyWidget BusyWidgetFacts.

Lemma two_adds_one_member (w : string) (s : gset string) :
  {[ w ]} ∪ ({[ w ]} ∪ s) = {[ w ]} ∪ s.
Proof. set_solver. Qed.

Lemma blocked_false_disjoint (b : t) :
  blocked b = false ->
  (list_to_set (subtree b) ∪ filtered b) ∖ list_to_set (subtree b) = filtered b.
Proof.
  unfold blocked. intros H. apply bool_decide_eq_false in H.
  rewrite Exists_exists in H.
  apply set_eq. intros o. split; [set_solver|].
  intros Ho. apply elem_of_difference. split; [set_solver|].
  intros Hin. apply H. exists o. split; [|done].
  by apply elem_of_list_to_set in Hin.
Qed.

Lemma set_overwhelmed_idle slf ent flt curs (w : string) :
  set_overwhelmed w (mk slf ∅ ent flt curs) =
  mk slf {[ w ]} ent (list_to_set (oid slf :: map oid (iter_children slf)) ∪ flt)
     (if ent then BusyCursor :: curs else curs).
Proof.
  unfold set_overwhelmed. simpl. rewrite truthy_empty.
  destruct ent;
    unfold set_busy_works, _block_children, _over_busy_cursor,
      set_override_cursors, set_filtered, action;
    simpl; rewrite foldl_install; f_equal; set_solver.
Qed.

Lemma set_overwhelmed_busy (b : t) (w : string) :
  _busy_works b ≠ ∅ ->
  set_overwhelmed w b = set_busy_works ({[ w ]} ∪ _busy_works b) b.
Proof.
  intros H. unfold set_overwhelmed. by rewrite (truthy_nonempty _ H).
Qed.

Lemma pop_overwhelmed_last slf ent flt curs (w : string) :
  pop_overwhelmed w (mk slf {[ w ]} ent flt curs) =
  mk slf ∅ ent (flt ∖ list_to_set (oid slf :: map oid (iter_children slf)))
     (if ent then tail curs else curs).
Proof.
  unfold pop_overwhelmed. simpl.
  rewrite bool_decide_eq_true_2 by set_solver.
  unfold set_busy_works at 1 2 3. simpl.
  rewrite (difference_diag_L ({[ w ]} : gset string)). rewrite truthy_empty.
  destruct ent;
    unfold _block_children, _over_busy_cursor,
      set_override_cursors, set_filtered, action;
    simpl; rewrite foldl_remove; f_equal; set_solver.
Qed.

Lemma blocked_after_install slf works ent flt curs :
  blocked (mk slf works ent
             (list_to_set (oid slf :: map oid (iter_children slf)) ∪ flt) curs) = true.
Proof.
  unfold blocked. apply bool_decide_eq_true. apply Exists_exists.
  exists (oid slf). unfold subtree. simpl. set_solver.
Qed.

Lemma not_blocked_after_remove slf works ent flt curs :
  blocked (mk slf works ent
             (flt ∖ list_to_set (oid slf :: map oid (iter_children slf))) curs) = false.
Proof.
  unfold blocked. apply bool_decide_eq_false. rewrite Exists_exists.
  unfold subtree. simpl. intros (o & Hin & Hf). set_solver.
Qed.

(** C2. Starting with no outstanding work, [set_overwhelmed w] twice and
    [pop_overwhelmed w] once leave the busy-work set empty and the widget
    unblocked: after the two adds the set has the single member [w] and the
    widget is blocked, one pop empties the set and removes the filter from
    the widget and its descendants, the override cursors are as before, and
    a widget that carried no filter at the start is back in exactly its
    initial state. *)
Theorem set_twice_pop_once_unblocks (b : t) (w : string) :
  _busy_works b = ∅ ->
  let b2 := set_overwhelmed w (set_overwhelmed w b) in
  let b3 := pop_overwhelmed w b2 in
  _busy_works b2 = {[ w ]} /\ blocked b2 = true /\
  _busy_works b3 = ∅ /\ blocked b3 = false /\
  override_cursors b3 = override_cursors b /\
  (blocked b = false -> b3 = b).
Proof.
  intros Hempty. destruct b as [slf works ent flt curs]. simpl in Hempty.
  subst works. cbv zeta.
  rewrite set_overwhelmed_idle.
  rewrite set_overwhelmed_busy by (simpl; set_solver).
  unfold set_busy_works. simpl.
  replace ({[ w ]} ∪ {[ w ]} : gset string) with ({[ w ]} : gset string)
    by set_solver.
  rewrite pop_overwhelmed_last. simpl.
  split; [done|]. split; [apply blocked_after_install|].
  split; [done|]. split; [apply not_blocked_after_remove|].
  split; [by destruct ent|].
  intros Hb. f_equal.
  - apply (blocked_false_disjoint (mk slf ∅ ent flt curs) Hb).
  - by destruct ent.
Qed.

Lemma set_twice_pop_once_unblocks_witness :
  let b := Examples.busy_widget in
  _busy_works b = ∅ /\
  pop_overwhelmed "resolve"
    (set_overwhelmed "resolve" (set_overwhelmed "resolve" b)) = b.
Proof.
  cbv zeta. split; [reflexivity|].
  destruct (set_twice_pop_once_unblocks Examples.busy_widget "resolve" eq_refl)
    as (_ & _ & _ & _ & _ & Hsame).
  apply Hsame. vm_compute. reflexivity.
Defined.

(** C10. With outstanding work, popping a worker id that is not in the
    busy-work set changes nothing: the set, the objects carrying the
    input-blocking filter and the override cursors are as before. *)
Theorem pop_unknown_worker_unchanged (b : t) (w : string) :
  _busy_works b ≠ ∅ -> w ∉ _busy_works b -> pop_overwhelmed w b = b.
Proof.
  intros Hne Hnot. unfold pop_overwhelmed.
  rewrite bool_decide_eq_false_2 by done.
  by rewrite (truthy_nonempty _ Hne).
Qed.

Lemma pop_unknown_worker_unchanged_witness :
  let b := Examples.busy_resolving in
  (_busy_works b ≠ ∅) /\ ("sync" ∉ _busy_works b) /\
  pop_overwhelmed "sync" b = b.
Proof.
  cbv zeta.
  assert (Hne : _busy_works Examples.busy_resolving ≠ ∅).
  { apply (bool_decide_unpack _). vm_compute. exact I. }
  assert (Hnot : "sync" ∉ _busy_works Examples.busy_resolving).
  { apply (bool_decide_unpack _). vm_compute. exact I. }
  split; [exact Hne|]. split; [exact Hnot|].
  exact (pop_unknown_worker_unchanged Examples.busy_resolving "sync" Hne Hnot).
Defined.

End BusyWidgetClaims.

Module SlidePageWidgetClaims.
Import SlidePageWidget.

Lemma directions_lookup_other (d : string) :
  d ≠ "left" -> d ≠ "right" -> d ≠ "up" -> d ≠ "down" ->
  directions !! d = None.
Proof.
  intros Hl Hr Hu Hd. unfold directions.
  rewrite !lookup_insert_ne by done. apply lookup_empty.
Qed.


(** C5. [slide_view(i, d)] with [i] the current index is a no-op for
    every state and every direction token: it returns normally and the
    state, with its current index, its pages, its started animations and
    its log, is the one before the call. *)
Theorem slide_view_current_noop (s : t) (i : Z) (d : string) :
  i = currentIndex s -> slide_view i d s = (Return tt, s).
Proof.
  intros ->. unfold slide_view, bind, get, ret. by rewrite Z.eqb_refl.
Qed.

Lemma slide_view_current_noop_witness :
  slide_view 0 "left" Examples.slider = (Return tt, Examples.slider).
Proof.
  apply (slide_view_current_noop Examples.slider 0 "left"). reflexivity.
Defined.

(** C6. [slide_view(i, d)] with [i] different from the current index
    and [d] none of left, right, up and down returns normally, having
    only appended one warning to the log: the current index, the pages
    and the started animations are unchanged. *)
Theorem slide_view_invalid_direction (s : t) (i : Z) (d : string) :
  i ≠ currentIndex s ->
  d ∉ ["left"; "right"; "up"; "down"] ->
  exists s',
    slide_view i d s = (Return tt, s') /\
    currentIndex s' = currentIndex s /\
    pages s' = pages s /\
    running s' = running s /\
    raised s' = raised s /\
    logs s' = (logs s ++ [LogRecord WARNING (InvalidSlideDirection d)])%list.
Proof.
  intros Hi Hd.
  exists (log WARNING (InvalidSlideDirection d) s). split; [|done].
  unfold slide_view, bind, get, modify.
  destruct (Z.eqb_spec (currentIndex s) i) as [E|_]; [congruence|].
  rewrite directions_lookup_other; [done|..];
    intros ->; apply Hd; set_solver.
Qed.

Lemma slide_view_invalid_direction_witness :
  exists s',
    slide_view 1 "sideways" Examples.slider = (Return tt, s') /\
    currentIndex s' = 0 /\
    pages s' = pages Examples.slider /\
    running s' = [] /\
    raised s' = None /\
    logs s' = [LogRecord WARNING (InvalidSlideDirection "sideways")].
Proof.
  apply (slide_view_invalid_direction Examples.slider 1 "sideways").
  - simpl. lia.
  - apply (bool_decide_unpack _). vm_compute. exact I.
Defined.

End SlidePageWidgetClaims.

Module AvalonWidgetClaims.
Import AvalonWidget.

(** C7. When [p] is both the slider's current index and the cached
    [_page], [set_page(p)] returns at once whatever the slider's
    [slide_view] would do: the state is unchanged, so calling it again
    gives the same result. *)
Theorem set_page_same_page_idempotent
    (slide_view : Z -> string -> M SlidePageWidget.t unit) (a : t) (p : Z) :
  SlidePageWidget.currentIndex (_slider a) = p ->
  _page a = p ->
  set_page slide_view p a = (Return tt, a) /\
  (set_page slide_view p;; set_page slide_view p) a = set_page slide_view p a.
Proof.
  intros Hc Hp.
  assert (H : set_page slide_view p a = (Return tt, a)).
  { unfold set_page, bind, get, ret. rewrite Hc, Hp, Z.eqb_refl. done. }
  split; [done|]. unfold bind at 1. by rewrite H.
Qed.

Lemma set_page_same_page_idempotent_witness :
  set_page SlidePageWidget.slide_view 0 Examples.avalon
    = (Return tt, Examples.avalon) /\
  (set_page SlidePageWidget.slide_view 0;;
   set_page SlidePageWidget.slide_view 0) Examples.avalon
    = set_page SlidePageWidget.slide_view 0 Examples.avalon.
Proof.
  apply (set_page_same_page_idempotent SlidePageWidget.slide_view
           Examples.avalon 0); reflexivity.
Defined.

End AvalonWidgetClaims.

Module WorkspaceWidgetFacts.
Import WorkspaceWidget Backends.

Lemma findText_ge (items : list (string * string)) (text : string) :
  -1 <= findText items text.
Proof.
  induction items as [|[icon t] items IH]; simpl; [lia|].
  destruct (decide (t = text)); [lia|].
  destruct (Z.ltb_spec (findText items text) 0); lia.
Qed.

Lemma findText_absent (items : list (string * string)) (text : string) :
  text ∉ items.*2 -> findText items text = -1.
Proof.
  induction items as [|[icon t] items IH]; simpl; [done|].
  intros Hnot. destruct (decide (t = text)) as [->|_]; [set_solver|].
  rewrite IH by set_solver. done.
Qed.

Lemma findText_present (items : list (string * string)) (text : string) :
  text ∈ items.*2 -> 0 <= findText items text.
Proof.
  induction items as [|[icon t] items IH]; simpl; [set_solver|].
  intros Hin. destruct (decide (t = text)) as [->|Hne]; [lia|].
  assert (0 <= findText items text) by (apply IH; set_solver).
  destruct (Z.ltb_spec (findText items text) 0); lia.
Qed.

(** Entering a root scope unknown to the selector logs one critical
    record, falls back to the void page and then fails on it. *)
Lemma on_workspace_entered_unknown_root
    (enter : backend_widget -> scope -> bool -> result backend_widget)
    (s : t) (n : string) :
  _stack s !! 0%nat = Some VoidPage ->
  n ∉ (_combo s).*2 ->
  exists s',
    on_workspace_entered enter (Scope n None) s
      = (Raise (AttributeError "QWidget" "enter_workspace"), s') /\
    logs s' = (logs s ++ [LogRecord CRITICAL (UnknownRootLevel n)])%list /\
    stack_currentIndex s' = 0 /\
    _stack s' = _stack s /\ emitted s' = emitted s.
Proof.
  intros Hvoid Hn. destruct s as [stk cur combo ccur blk em lg].
  simpl in Hvoid, Hn. destruct stk as [|p stk]; [done|].
  injection Hvoid as ->.
  unfold on_workspace_entered, bind, get, modify, ret. simpl.
  rewrite (findText_absent _ _ Hn). simpl.
  destruct cur; simpl; (eexists; split; [reflexivity | done]).
Qed.

Lemma load_failure_not_registers env (n : string) (m : message) :
  load_failure env n = Some m -> registers env n = None.
Proof.
  unfold load_failure, registers.
  destruct (_load_backends env !! n) as [[c|e]|]; done.
Qed.

Lemma registers_not_load_failure env (n : string) x :
  registers env n = Some x -> load_failure env n = None.
Proof.
  unfold load_failure, registers.
  destruct (_load_backends env !! n) as [[c|e]|]; done.
Qed.

Lemma register_backend_failed env (n : string) (m : message) (s : t) :
  load_failure env n = Some m ->
  register_backend (_load_backends env) n s = (Return tt, log ERROR m s).
Proof.
  unfold load_failure, register_backend.
  destruct (_load_backends env !! n) as [[c|e]|]; [done|..];
    intros [= <-]; done.
Qed.

Lemma register_backend_registers env (n : string) item w (s : t) :
  registers env n = Some (item, w) ->
  signalsBlocked s = true ->
  register_backend (_load_backends env) n s =
    (Return tt,
     mk (_stack s ++ [BackendPage w]) (stack_currentIndex s)
        (_combo s ++ [item])
        (if combo_currentIndex s <? 0 then 0 else combo_currentIndex s)
        true (emitted s) (logs s)).
Proof.
  unfold registers, register_backend, usable.
  destruct (_load_backends env !! n) as [[c|e]|]; [|done..].
  destruct (construct c) as [w'|e] eqn:Hc; [|done]. simpl.
  destruct (tools_requested w') eqn:H1; [|done].
  destruct (workspace_changed w') eqn:H2; [|done].
  destruct (workspace_refreshed w') eqn:H3; [|done]. simpl.
  destruct (enter_workspace w') eqn:H4; try done.
  destruct (update_workspace w') eqn:H5; try done.
  destruct (on_cache_cleared w') eqn:H6; try done.
  intros [= <- <-] Hb. destruct s as [stk cur combo ccur blk em lg].
  simpl in Hb. subst blk.
  unfold bind, lift_result, connect, assert_callable, addWidget, addItem,
    _on_backend_changed, modify, get, ret, emit. simpl.
  rewrite H1, H2, H3, H4, H5, H6. simpl.
  unfold bind, set_stack, set_combo. simpl.
  destruct (ccur <? 0); done.
Qed.

Lemma register_each_settled env (names : list string) (s : t) :
  all_settled env names ->
  signalsBlocked s = true ->
  register_each (_load_backends env) names s = (Return tt, registered env names s).
Proof.
  intros Hall. revert s.
  induction Hall as [|n names Hn _ IH]; intros s Hb.
  - destruct s as [stk cur combo ccur blk em lg]. unfold registered. simpl.
    rewrite !app_nil_r. unfold ret. by destruct (ccur <? 0).
  - simpl. unfold bind at 1. destruct Hn as [[m Hm]|[[item w] Hr]].
    + rewrite (register_backend_failed _ _ _ _ Hm).
      rewrite IH by done. f_equal.
      unfold registered, items, widgets, errors. simpl.
      rewrite (load_failure_not_registers _ _ _ Hm), Hm. simpl.
      by rewrite <- app_assoc.
    + rewrite (register_backend_registers _ _ _ _ _ Hr Hb).
      rewrite IH by done. f_equal.
      unfold registered, items, widgets, errors. simpl.
      rewrite (registers_not_load_failure _ _ _ Hr), Hr. simpl.
      rewrite <- !app_assoc. simpl. rewrite Hb.
      f_equal. destruct (Z.ltb_spec (combo_currentIndex s) 0) as [Hlt|Hge].
      * done.
      * destruct (Z.ltb_spec (combo_currentIndex s) 0); [lia|done].
Qed.

End WorkspaceWidgetFacts.

Module WorkspaceWidgetClaims.
Import WorkspaceWidget Backends WorkspaceWidgetFacts.

(** Registration on a widget that has no backend page yet, when every
    name either fails to load or registers: the loop runs to its end with
    the signals blocked, then the first selector entry is announced, or
    the lack of any is logged. *)
Lemma register_backends_settled env (names : list string) (s : t) :
  count (_stack s) <= 1 ->
  all_settled env names ->
  register_backends env names s =
    (Return tt,
     let r := blockSignals false (registered env names (blockSignals true s)) in
     if negb (count (_combo r) =? 0)
     then emit (backend_changed (currentText r)) r
     else log ERROR NoValidBackend r).
Proof.
  intros Hc Hall. unfold register_backends, bind at 1, get.
  destruct (Z.gtb_spec (count (_stack s)) 1) as [?|_]; [lia|].
  unfold bind at 1, modify at 1. unfold bind at 1.
  rewrite register_each_settled by done.
  unfold bind, modify, get, _on_backend_changed. cbv zeta.
  by destruct (negb _).
Qed.

(** C1 (the code diverges). Entering the root scope named Studio on a
    widget whose selector has no entry logs the one critical record and
    then ends in an [AttributeError]: the page left current is the plain
    void page, which has no [enter_workspace]. *)
Theorem on_workspace_entered_unknown_root_raises
    (enter : backend_widget -> scope -> bool -> result backend_widget) :
  on_workspace_entered enter (Scope "Studio" None) init =
    (Raise (AttributeError "QWidget" "enter_workspace"),
     log CRITICAL (UnknownRootLevel "Studio") init).
Proof. reflexivity. Qed.

(** C3. A name that has no getter, or whose getter raises, costs one
    error record and the loop of [register_backends] goes on with the
    remaining names from the otherwise unchanged state; and registering
    [[x; y]] on a fresh widget, where [x] fails to load and [y] loads a
    usable widget class, returns normally with the one selector entry
    [y], the one backend page, the one error record for [x] and
    [backend_changed(y)] emitted once. *)
Theorem register_backends_skips_failed env (x y icon : string)
    (m : message) (w : backend_widget) (rest : list string) (s : t) :
  load_failure env x = Some m ->
  registers env y = Some ((icon, y), w) ->
  fresh s ->
  (forall st,
     register_each (_load_backends env) (x :: rest) st =
     register_each (_load_backends env) rest (log ERROR m st)) /\
  register_backends env [x; y] s =
    (Return tt,
     mk [VoidPage; BackendPage w] (stack_currentIndex s) [(icon, y)] 0 false
        (emitted s ++ [backend_changed y])
        (logs s ++ [LogRecord ERROR m])).
Proof.
  intros Hx Hy (Hstack & Hcombo & Hcur & Hblk). split.
  - intros st. simpl. unfold bind at 1.
    by rewrite (register_backend_failed _ _ _ _ Hx).
  - rewrite register_backends_settled.
    + destruct s as [stk cur combo ccur blk em lg]. simpl in *. subst.
      unfold registered, items, widgets, errors. simpl.
      rewrite (load_failure_not_registers _ _ _ Hx), Hx.
      rewrite (registers_not_load_failure _ _ _ Hy), Hy. simpl.
      reflexivity.
    + rewrite Hstack. simpl. unfold count. simpl. lia.
    + constructor; [left; eauto|]. constructor; [right; eauto|]. constructor.
Qed.

Lemma register_backends_skips_failed_witness :
  register_backends example_imports ["x"; "avalon"] init =
    (Return tt,
     mk [VoidPage; BackendPage example_widget] 0
        [(":/icons/avalon.svg", "avalon")] 0 false
        [backend_changed "avalon"]
        [LogRecord ERROR (NoWidgetForBackend "x")]).
Proof.
  refine (proj2 (register_backends_skips_failed example_imports
            "x" "avalon" ":/icons/avalon.svg" (NoWidgetForBackend "x")
            example_widget [] init _ _ _)).
  - reflexivity.
  - reflexivity.
  - repeat split.
Defined.

(** C9. Once the stack holds a backend page (count above 1),
    [register_backends] with any list of names returns at once: the
    pages, the selector entries, the emitted signals and the log are those
    from before the call. *)
Theorem register_backends_again_noop env (names : list string) (s : t) :
  count (_stack s) > 1 -> register_backends env names s = (Return tt, s).
Proof.
  intros Hc. unfold register_backends, bind, get, ret.
  destruct (Z.gtb_spec (count (_stack s)) 1); [done|lia].
Qed.

Lemma register_backends_again_noop_witness :
  let s1 := snd (register_backends example_imports ["avalon"] init) in
  count (_stack s1) > 1 /\
  register_backends example_imports ["sg_sync"; "avalon"] s1 = (Return tt, s1).
Proof.
  cbv zeta. split.
  - vm_compute. reflexivity.
  - apply (register_backends_again_noop example_imports). vm_compute. reflexivity.
Defined.

End WorkspaceWidgetClaims.

Module ToolContextWidgetClaims.
Import ToolContextWidget.

Lemma update_lookup (d other : gmap string string) (k : string) :
  update d other !! k =
    match other !! k with Some v => Some v | None => d !! k end.
Proof.
  unfold update. revert k.
  apply (map_fold_weak_ind
           (fun (r : gmap string string) (m : gmap string string) =>
              forall k, r !! k =
                match m !! k with Some v => Some v | None => d !! k end)).
  - intros k. by rewrite lookup_empty.
  - intros i x m r Hi IH k. destruct (decide (i = k)) as [->|Hne].
    + by rewrite !lookup_insert_eq.
    + rewrite !lookup_insert_ne by done. apply IH.
Qed.

Lemma update_union (d other : gmap string string) : update d other = other ∪ d.
Proof.
  apply map_eq. intros k. rewrite update_lookup, lookup_union.
  destruct (other !! k), (d !! k); done.
Qed.

(** C4. The environment [on_tool_selected] hands to the environment
    model is the context's computed environment updated with the
    work-directory overrides: a key of the overrides shows the override's
    value, and every other key shows what the computed environment has for
    it (nothing when it has none). *)
Theorem on_tool_selected_merges_overrides {Note : Type}
    (inspect : context -> Note) (tool : SuiteTool)
    (work_env : gmap string string) (w : t) (k : string) :
  _environ (on_tool_selected inspect tool work_env w) !! k =
    match work_env !! k with
    | Some v => Some v
    | None => get_environ (context_of tool) !! k
    end.
Proof. unfold on_tool_selected. simpl. apply update_lookup. Qed.

(** The example of the specification: computed [PATH] and [HOME], local
    override of [PATH]. *)
Example path_override_shown :
  let tool :=
    mkTool "maya" "site" (mkContext 0 {[ "PATH" := "/a:/b"; "HOME" := "/home/u" ]})
           "Maya" in
  let shown :=
    _environ (on_tool_selected (fun _ => tt) tool {[ "PATH" := "/c" ]}
                (mk None ∅ None None)) in
  shown !! "PATH" = Some "/c" /\ shown !! "HOME" = Some "/home/u".
Proof. cbv zeta. unfold on_tool_selected. simpl. rewrite !update_lookup. split; reflexivity. Qed.

End ToolContextWidgetClaims.

Module ResolvedEnvironmentClaims.
Import ResolvedEnvironment.

(** After the debounced filter is applied the tree is expanded or
    collapsed by the length of the search text. *)
Lemma deferred_search_tree (r : t) :
  tree (_deferred_search r) = expected r /\
  search_text (_deferred_search r) = search_text r.
Proof.
  unfold _deferred_search, expected. simpl.
  destruct (len (search_text r) >? 1); done.
Qed.

(** So it is after the inverse flag is toggled. *)
Lemma on_inverse_tree (state : Z) (r : t) :
  tree (_on_inverse state r) = expected r /\
  search_text (_on_inverse state r) = search_text r.
Proof.
  unfold _on_inverse, expected. simpl.
  destruct (len (search_text r) >? 1); done.
Qed.

(** Switching between key and value mode leaves the tree as it was. *)
Lemma on_switched_tree (state : Z) (r : t) :
  tree (_on_switched state r) = tree r /\
  search_text (_on_switched state r) = search_text r /\
  extension_resets (_on_switched state r) = extension_resets r.
Proof. unfold _on_switched. destruct (state =? Checked); done. Qed.

(** C8 (the code diverges). The user types PATH and switches the filter
    to value mode before the timer fires: the filter now works on values,
    the text is longer than one character, and the tree is still fully
    collapsed. *)
Theorem on_switched_does_not_expand :
  let r := _on_switched Unchecked (textChanged "PATH" init) in
  mode r = ByValue /\ len (search_text r) > 1 /\ tree r = Collapsed.
Proof. cbv zeta. repeat split; reflexivity. Qed.

End ResolvedEnvironmentClaims.

Module BusyWidgetMore.
Import BusyWidget BusyWidgetFacts BusyEvents.

Lemma set_overwhelmed_fields (w : string) (b : t) :
  self (set_overwhelmed w b) = self b /\
  _busy_works (set_overwhelmed w b) = {[ w ]} ∪ _busy_works b /\
  _entered (set_overwhelmed w b) = _entered b /\
  filtered (set_overwhelmed w b) =
    (if truthy (_busy_works b) then filtered b
     else list_to_set (subtree b) ∪ filtered b) /\
  override_cursors (set_overwhelmed w b) =
    (if truthy (_busy_works b) then override_cursors b
     else if _entered b then BusyCursor :: override_cursors b
          else override_cursors b).
Proof.
  destruct b as [slf works ent flt curs]. unfold set_overwhelmed. simpl.
  destruct (truthy works); simpl; [done|].
  destruct ent; simpl; repeat split;
    rewrite foldl_install; set_solver.
Qed.

Lemma pop_overwhelmed_fields (w : string) (b : t) :
  let works := if bool_decide (w ∈ _busy_works b)
               then _busy_works b ∖ {[ w ]} else _busy_works b in
  self (pop_overwhelmed w b) = self b /\
  _busy_works (pop_overwhelmed w b) = works /\
  _entered (pop_overwhelmed w b) = _entered b /\
  filtered (pop_overwhelmed w b) =
    (if truthy works then filtered b
     else filtered b ∖ list_to_set (subtree b)) /\
  override_cursors (pop_overwhelmed w b) =
    (if truthy works then override_cursors b
     else if _entered b then tail (override_cursors b)
          else override_cursors b).
Proof.
  destruct b as [slf works ent flt curs]. unfold pop_overwhelmed. simpl.
  destruct (bool_decide (w ∈ works)); simpl;
    (match goal with |- context [truthy ?x] => destruct (truthy x) end);
    simpl; try done;
    destruct ent; simpl; repeat split;
    rewrite foldl_remove; set_solver.
Qed.

Lemma blocked_iff (b : t) :
  blocked b = true <-> exists o, o ∈ subtree b /\ o ∈ filtered b.
Proof.
  unfold blocked. rewrite bool_decide_eq_true, Exists_exists. done.
Qed.

Lemma consistent_blocked (b : t) :
  consistent b -> blocked b = truthy (_busy_works b).
Proof.
  unfold consistent. rewrite Forall_forall. intros H.
  assert (Hself : oid (self b) ∈ subtree b) by (unfold subtree; set_solver).
  unfold truthy. destruct (decide (_busy_works b ≠ ∅)) as [Hne|He].
  - rewrite (bool_decide_eq_true_2 _ Hne). apply blocked_iff.
    exists (oid (self b)). split; [done|]. by apply H.
  - rewrite (bool_decide_eq_false_2 _ He).
    destruct (blocked b) eqn:Hb; [|done].
    apply blocked_iff in Hb as (o & Ho & Hf). exfalso. apply He.
    by apply (H o Ho).
Qed.

Lemma step_consistent (b : t) (e : event) :
  consistent b -> consistent (step b e).
Proof.
  unfold consistent. rewrite !Forall_forall. intros H.
  destruct e as [w|w| |]; cbn [step].
  - destruct (set_overwhelmed_fields w b) as (Hs & Hw & _ & Hf & _).
    unfold subtree. rewrite Hs, Hw, Hf. fold (subtree b).
    intros o Ho. specialize (H o Ho). unfold truthy.
    destruct (decide (_busy_works b ≠ ∅)) as [Hne|He].
    + rewrite (bool_decide_eq_true_2 _ Hne). split; [set_solver|].
      intros _. by apply H.
    + rewrite (bool_decide_eq_false_2 _ He). split; [set_solver|].
      intros _. apply elem_of_union_l. by apply elem_of_list_to_set.
  - destruct (pop_overwhelmed_fields w b) as (Hs & Hw & _ & Hf & _).
    unfold subtree. rewrite Hs, Hw, Hf. fold (subtree b).
    intros o Ho. specialize (H o Ho). unfold truthy.
    set (works := if bool_decide (w ∈ _busy_works b)
                  then _busy_works b ∖ {[ w ]} else _busy_works b).
    assert (Hsub : works ≠ ∅ -> _busy_works b ≠ ∅).
    { unfold works. destruct (bool_decide (w ∈ _busy_works b)); set_solver. }
    destruct (decide (works ≠ ∅)) as [Hne|He].
    + rewrite (bool_decide_eq_true_2 _ Hne). split; [done|].
      intros _. apply H. by apply Hsub.
    + rewrite (bool_decide_eq_false_2 _ He). split; [|done].
      intros Hin. apply elem_of_difference in Hin as [_ Hnot].
      exfalso. apply Hnot. by apply elem_of_list_to_set.
  - unfold enterEvent, _over_busy_cursor.
    destruct (truthy (_busy_works b)); exact H.
  - unfold leaveEvent, _over_busy_cursor.
    destruct (truthy (_busy_works b)); exact H.
Qed.




(** X2. Whatever slots and pointer events reach the widget, in any
    order and with any worker ids, input is blocked exactly while work is
    outstanding: the filter is on the widget and every descendant when the
    busy-work set is non-empty and on none of them when it is empty. *)
Theorem blocked_exactly_while_busy (es : list event) (b : t) :
  consistent b ->
  consistent (run es b) /\
  blocked (run es b) = truthy (_busy_works (run es b)).
Proof.
  intros H. assert (Hc : consistent (run es b)).
  { revert b H. induction es as [|e es IH]; intros b H; simpl; [done|].
    apply IH. by apply step_consistent. }
  split; [done|]. by apply consistent_blocked.
Qed.

Lemma blocked_exactly_while_busy_witness :
  let es := [Enter; SetOverwhelmed "resolve"; PopOverwhelmed "sync";
             SetOverwhelmed "resolve"; Leave; PopOverwhelmed "resolve"] in
  consistent (run es Examples.busy_widget) /\
  blocked (run es Examples.busy_widget) = false.
Proof.
  cbv zeta.
  assert (H0 : consistent Examples.busy_widget).
  { apply (bool_decide_unpack _). vm_compute. exact I. }
  destruct (blocked_exactly_while_busy
              [Enter; SetOverwhelmed "resolve"; PopOverwhelmed "sync";
               SetOverwhelmed "resolve"; Leave; PopOverwhelmed "resolve"]
              Examples.busy_widget H0) as [H1 H2].
  split; [exact H1|]. rewrite H2. vm_compute. reflexivity.
Defined.

(** X3. Popping any worker while no work is outstanding still runs the
    unblocking branch: the set stays empty and the filter is taken off the
    whole subtree, but when the pointer is inside, the top override cursor
    of the application is restored although this widget set none. *)
Theorem pop_while_idle (b : t) (w : string) :
  _busy_works b = ∅ ->
  _busy_works (pop_overwhelmed w b) = ∅ /\
  blocked (pop_overwhelmed w b) = false /\
  override_cursors (pop_overwhelmed w b) =
    (if _entered b then tail (override_cursors b) else override_cursors b).
Proof.
  intros He.
  destruct (pop_overwhelmed_fields w b) as (Hs & Hw & _ & Hf & Hc).
  rewrite He in Hw, Hf, Hc.
  rewrite bool_decide_eq_false_2 in Hw, Hf, Hc by set_solver.
  rewrite truthy_empty in Hf, Hc.
  split; [done|]. split; [|done].
  destruct (blocked (pop_overwhelmed w b)) eqn:Hb; [|done].
  apply blocked_iff in Hb as (o & Ho & Hin). exfalso.
  assert (Sub : subtree (pop_overwhelmed w b) = subtree b)
    by (unfold subtree; by rewrite Hs).
  rewrite Hf in Hin. rewrite Sub in Ho. set_solver.
Qed.

Lemma pop_while_idle_witness :
  let b := set_override_cursors [BusyCursor]
             (enterEvent Examples.busy_widget) in
  _busy_works b = ∅ /\ override_cursors (pop_overwhelmed "resolve" b) = [].
Proof.
  cbv zeta. split; [reflexivity|].
  destruct (pop_while_idle
              (set_override_cursors [BusyCursor]
                 (enterEvent Examples.busy_widget)) "resolve" eq_refl)
    as (_ & _ & H).
  exact H.
Defined.

(** X4. The pointer entering and then leaving the widget touches the
    pointer shape only: the override cursors are those from before, and
    neither event changes the busy-work set or the objects carrying the
    filter. *)
Theorem enter_leave_pointer_only (b : t) :
  override_cursors (leaveEvent (enterEvent b)) = override_cursors b /\
  _entered (leaveEvent (enterEvent b)) = false /\
  filtered (enterEvent b) = filtered b /\
  filtered (leaveEvent b) = filtered b /\
  _busy_works (enterEvent b) = _busy_works b /\
  _busy_works (leaveEvent b) = _busy_works b.
Proof.
  destruct b as [slf works ent flt curs].
  unfold leaveEvent, enterEvent, _over_busy_cursor. simpl.
  destruct (truthy works) eqn:T; simpl; rewrite ?T; simpl; done.
Qed.

End BusyWidgetMore.

Module SlidePageWidgetMore.
Import SlidePageWidget.

Lemma widget_Some (s : t) (i : Z) (k : nat) (p : page) :
  widget s i = Some (k, p) ->
  0 <= i /\ k = Z.to_nat i /\ pages s !! k = Some p /\ i = Z.of_nat k.
Proof.
  unfold widget. destruct (Z.ltb_spec i 0) as [|Hi]; [done|].
  destruct (pages s !! Z.to_nat i) as [q|] eqn:E; [|done]. simpl.
  intros [= <- <-]. repeat split; [done..|lia].
Qed.

(** The state a valid [slide_view] reaches, in full. *)
Lemma slide_view_valid (s : t) (i : Z) (d : string) (off : QPoint)
    (k : nat) (p : page) :
  i ≠ currentIndex s ->
  directions !! d = Some off ->
  widget s i = Some (k, p) ->
  let offset := mkPoint (x off * frame_width s) (y off * frame_height s) in
  slide_view i d s =
    (Return tt,
     mk (<[k := mkPage offset (frame_width s) (frame_height s) true]> (pages s))
        (currentIndex s) (frame_width s) (frame_height s) (Some k)
        (running s ++
         [mkGroup
            [mkAnimation (fst <$> currentWidget s) 250 (mkPoint 0 0)
               (mkPoint (- x offset) (- y offset)) OutQuad;
             mkAnimation (Some k) 250 offset (mkPoint 0 0) OutQuad] k])
        (logs s)).
Proof.
  intros Hi Hd Hw. destruct (widget_Some _ _ _ _ Hw) as (H0 & -> & Hp & Hk).
  destruct s as [ps cur fw fh rs run lg]. simpl in *.
  unfold slide_view, bind, get, modify, ret. simpl.
  destruct (Z.eqb_spec cur i) as [E|_]; [congruence|].
  rewrite Hd, Hw. simpl. unfold padd, psub. simpl.
  f_equal. unfold set_running, set_raised, set_pages. simpl.
  f_equal. f_equal. f_equal. f_equal. f_equal.
  unfold currentWidget, widget. simpl.
  destruct (cur <? 0); [done|].
  destruct (decide (Z.to_nat cur = Z.to_nat i)) as [Eq|Ne].
  - rewrite Eq, Hp. rewrite list_lookup_insert_eq; [done|].
    by apply lookup_lt_Some in Hp.
  - by rewrite list_lookup_insert_ne.
Qed.

(** X5. A slide to an existing page other than the current one, in a
    valid direction, returns normally with nothing logged and the current
    index not yet switched: the new page is shown, raised and placed one
    frame away in the given direction, and one group of two 250 ms
    animations is started that moves the current page and the new page by
    the same vector, the new page ending at the origin. *)
Theorem slide_view_starts_slide (s : t) (i : Z) (d : string) (off : QPoint)
    (k : nat) (p : page) :
  i ≠ currentIndex s ->
  directions !! d = Some off ->
  widget s i = Some (k, p) ->
  exists s' a_old a_new,
    slide_view i d s = (Return tt, s') /\
    currentIndex s' = currentIndex s /\ logs s' = logs s /\
    length (pages s') = length (pages s) /\
    raised s' = Some k /\
    pages s' !! k =
      Some (mkPage (startValue a_new) (frame_width s) (frame_height s) true) /\
    running s' = (running s ++ [mkGroup [a_old; a_new] k])%list /\
    target a_old = fst <$> currentWidget s /\ target a_new = Some k /\
    duration a_old = 250 /\ duration a_new = 250 /\
    startValue a_new = mkPoint (x off * frame_width s) (y off * frame_height s) /\
    endValue a_new = mkPoint 0 0 /\
    psub (endValue a_old) (startValue a_old)
      = psub (endValue a_new) (startValue a_new).
Proof.
  intros Hi Hd Hw. destruct (widget_Some _ _ _ _ Hw) as (_ & _ & Hp & _).
  eexists _, _, _. split; [by apply (slide_view_valid s i d off k p)|].
  simpl. rewrite length_insert.
  rewrite list_lookup_insert_eq by (by apply lookup_lt_Some in Hp).
  repeat split; try done; unfold psub; simpl; f_equal; lia.
Qed.

Lemma slide_view_starts_slide_witness :
  exists s' a_old a_new,
    slide_view 1 "right" Examples.slider = (Return tt, s') /\
    currentIndex s' = 0 /\
    running s' = [mkGroup [a_old; a_new] 1%nat] /\
    startValue a_new = mkPoint 320 0 /\
    endValue a_new = mkPoint 0 0.
Proof.
  destruct (slide_view_starts_slide Examples.slider 1 "right" (mkPoint 1 0)
              1%nat (mkPage (mkPoint 0 0) 320 480 false))
    as (s' & a_old & a_new & H1 & H2 & _ & _ & _ & _ & H3 & _ & _ & _ & _
        & H4 & H5 & _);
    [simpl; lia | reflexivity | reflexivity |].
  exists s', a_old, a_new.
  split; [exact H1|]. split; [exact H2|]. split; [exact H3|].
  split; [exact H4|exact H5].
Defined.



Lemma lookup_move_to_ne (a : animation) (ps : list page) (k : nat) :
  target a ≠ Some k -> move_to a ps !! k = ps !! k.
Proof.
  unfold move_to. destruct (target a) as [c|]; [|done].
  intros Hne. destruct (ps !! c); [|done].
  apply list_lookup_insert_ne. congruence.
Qed.

Lemma lookup_hide_ne (c k : nat) (ps : list page) :
  c ≠ k -> hide c ps !! k = ps !! k.
Proof.
  unfold hide. intros Hne. destruct (ps !! c); [|done].
  by apply list_lookup_insert_ne.
Qed.

Lemma currentWidget_other (s : t) (i : Z) (k : nat) (p : page) (c : nat) (q : page) :
  i ≠ currentIndex s -> widget s i = Some (k, p) ->
  currentWidget s = Some (c, q) -> c ≠ k.
Proof.
  intros Hi Hw Hc. unfold currentWidget in Hc.
  apply widget_Some in Hw as (? & ? & _ & ?).
  apply widget_Some in Hc as (? & ? & _ & ?). lia.
Qed.

(** X7. When the group started by a valid slide finishes, the stack
    switches to the requested page: its index is the current one, the page
    sits at the origin with the frame's size and is shown, and another
    slide to the same index, in any direction, does nothing. *)
Theorem slide_then_finished (s : t) (i : Z) (d : string) (off : QPoint)
    (k : nat) (p : page) :
  i ≠ currentIndex s ->
  directions !! d = Some off ->
  widget s i = Some (k, p) ->
  exists s' g,
    slide_view i d s = (Return tt, s') /\
    running s' = (running s ++ [g])%list /\
    currentIndex (slide_finished g s') = i /\
    pages (slide_finished g s') !! k =
      Some (mkPage (mkPoint 0 0) (frame_width s) (frame_height s) true) /\
    forall d', slide_view i d' (slide_finished g s')
               = (Return tt, slide_finished g s').
Proof.
  intros Hi Hd Hw.
  destruct (widget_Some _ _ _ _ Hw) as (H0 & Hk & Hp & Hik).
  eexists _, _. split; [by apply (slide_view_valid s i d off k p)|].
  split; [reflexivity|].
  set (s' := mk _ _ _ _ _ _ _). set (g := mkGroup _ _).
  assert (Hcur : currentIndex (slide_finished g s') = i).
  { unfold slide_finished. simpl. lia. }
  split; [exact Hcur|]. split.
  - assert (Hlt : (k < length (pages s))%nat) by (by apply lookup_lt_Some in Hp).
    assert (Hold : forall c q, currentWidget s = Some (c, q) -> c ≠ k)
      by (intros c q; by apply (currentWidget_other s i k p)).
    assert (Hmoved :
      foldr move_to (pages s') (animations g) !! k =
        Some (mkPage (mkPoint 0 0) (frame_width s) (frame_height s) true)).
    { simpl. rewrite lookup_move_to_ne.
      - unfold move_to. simpl. rewrite list_lookup_insert_eq by done. simpl.
        rewrite list_lookup_insert_eq by (by rewrite length_insert). done.
      - simpl. destruct (currentWidget s) as [[c q]|] eqn:E; [|done].
        simpl. intros [= ->]. by apply (Hold k q). }
    unfold slide_finished. simpl pages.
    destruct (currentWidget s') as [[c q]|] eqn:E; [|exact Hmoved].
    simpl in Hmoved.
    destruct (decide (c = k)) as [_|Hne]; [exact Hmoved|].
    rewrite lookup_hide_ne; [exact Hmoved|exact Hne].
  - intros d'. unfold slide_view, bind, get, ret. rewrite Hcur.
    by rewrite Z.eqb_refl.
Qed.

Lemma slide_then_finished_witness :
  exists s' g,
    slide_view 1 "right" Examples.slider = (Return tt, s') /\
    running s' = [g] /\
    currentIndex (slide_finished g s') = 1.
Proof.
  destruct (slide_then_finished Examples.slider 1 "right" (mkPoint 1 0)
              1%nat (mkPage (mkPoint 0 0) 320 480 false))
    as (s' & g & H1 & H2 & H3 & _); [simpl; lia | reflexivity | reflexivity |].
  exists s', g. split; [exact H1|]. split; [exact H2|exact H3].
Defined.

End SlidePageWidgetMore.

Module AvalonWidgetMore.
Import AvalonWidget.

(** X8. Whatever the slider's [slide_view] does, raising included,
    [set_page(p)] leaves the cached [_page] equal to [p]. *)
Theorem set_page_caches_page
    (slide_view : Z -> string -> M SlidePageWidget.t unit) (a : t) (p : Z) :
  _page (snd (set_page slide_view p a)) = p.
Proof.
  unfold set_page, bind, get, modify, ret, on_slider. simpl.
  destruct (Z.eqb_spec (SlidePageWidget.currentIndex (_slider a)) p) as [E1|N1];
    simpl.
  - destruct (Z.eqb_spec (_page a) p) as [E2|N2]; simpl; [done|].
    destruct (slide_view _ _ _) as [[u|e] sl]; done.
  - destruct (slide_view _ _ _) as [[u|e] sl]; done.
Qed.

(** X9. With the slider of [gui/widgets.py], asking for an existing
    page above the current one brings it in from the right and asking for
    one below brings it in from the left: the new page is placed one frame
    width to that side and its animation ends at the origin. *)
Theorem set_page_direction (a : t) (p : Z) (k : nat) (pg : SlidePageWidget.page) :
  p ≠ SlidePageWidget.currentIndex (_slider a) ->
  SlidePageWidget.widget (_slider a) p = Some (k, pg) ->
  exists a' a_old a_new,
    set_page SlidePageWidget.slide_view p a = (Return tt, a') /\
    _page a' = p /\
    SlidePageWidget.running (_slider a') =
      (SlidePageWidget.running (_slider a) ++
       [SlidePageWidget.mkGroup [a_old; a_new] k])%list /\
    SlidePageWidget.startValue a_new =
      SlidePageWidget.mkPoint
        (if p >? SlidePageWidget.currentIndex (_slider a)
         then SlidePageWidget.frame_width (_slider a)
         else - SlidePageWidget.frame_width (_slider a)) 0 /\
    SlidePageWidget.endValue a_new = SlidePageWidget.mkPoint 0 0.
Proof.
  intros Hp Hw.
  set (cur := SlidePageWidget.currentIndex (_slider a)) in *.
  set (d := if p >? cur then "right" else "left").
  set (off := if p >? cur then SlidePageWidget.mkPoint 1 0
              else SlidePageWidget.mkPoint (-1) 0).
  assert (Hd : SlidePageWidget.directions !! d = Some off).
  { unfold d, off. destruct (p >? cur); reflexivity. }
  pose proof (SlidePageWidgetMore.slide_view_valid
                (_slider a) p d off k pg Hp Hd Hw) as Hs.
  cbv zeta in Hs.
  unfold set_page, bind, get, modify, ret, on_slider. simpl. fold cur.
  destruct (Z.eqb_spec cur p) as [E|_]; [congruence|]. simpl. fold d.
  rewrite Hs. eexists _, _, _. split; [reflexivity|]. simpl.
  repeat split. unfold off. destruct (p >? cur); simpl; f_equal; lia.
Qed.

Lemma set_page_direction_witness :
  exists a' a_old a_new,
    set_page SlidePageWidget.slide_view 1 Examples.avalon = (Return tt, a') /\
    _page a' = 1 /\
    SlidePageWidget.running (_slider a') =
      [SlidePageWidget.mkGroup [a_old; a_new] 1%nat] /\
    SlidePageWidget.startValue a_new = SlidePageWidget.mkPoint 320 0.
Proof.
  destruct (set_page_direction Examples.avalon 1 1%nat
              (SlidePageWidget.mkPage (SlidePageWidget.mkPoint 0 0) 320 480 false))
    as (a' & a_old & a_new & H1 & H2 & H3 & H4 & _);
    [simpl; lia | reflexivity |].
  exists a', a_old, a_new. split; [exact H1|]. split; [exact H2|].
  split; [exact H3|exact H4].
Defined.

End AvalonWidgetMore.

Module WorkspaceWidgetMore.
Import WorkspaceWidget Backends WorkspaceWidgetFacts.

Lemma registers_text env (n : string) item w :
  registers env n = Some (item, w) ->
  item.2 = n /\ enter_workspace w = Callable.
Proof.
  unfold registers, usable.
  destruct (_load_backends env !! n) as [[c|e]|]; [|done..].
  destruct (construct c) as [w'|e]; [|done]. simpl.
  destruct (tools_requested w' && workspace_changed w' && workspace_refreshed w');
    [|done].
  destruct (enter_workspace w') eqn:E; try done.
  destruct (update_workspace w'); try done.
  destruct (on_cache_cleared w'); try done.
  simpl. intros [= <- <-]. done.
Qed.

Lemma items_cons env (n : string) (names : list string) :
  items env (n :: names) =
    match registers env n with
    | Some (item, _) => item :: items env names
    | None => items env names
    end.
Proof. unfold items. simpl. by destruct (registers env n) as [[item w]|]. Qed.

Lemma widgets_cons env (n : string) (names : list string) :
  widgets env (n :: names) =
    match registers env n with
    | Some (_, w) => w :: widgets env names
    | None => widgets env names
    end.
Proof. unfold widgets. simpl. by destruct (registers env n) as [[item w]|]. Qed.

Lemma items_names env (names : list string) :
  (items env names).*2 = filter (fun n => is_Some (registers env n)) names.
Proof.
  induction names as [|n names IH]; [done|].
  rewrite items_cons, filter_cons.
  destruct (registers env n) as [[item w]|] eqn:E.
  - destruct (decide (is_Some (Some (item, w)))) as [_|H]; [|by destruct H].
    rewrite fmap_cons, IH. f_equal. by apply (registers_text env n item w).
  - destruct (decide (is_Some None)) as [[? H]|_]; [done|]. exact IH.
Qed.

Lemma items_widgets_length env (names : list string) :
  length (items env names) = length (widgets env names).
Proof.
  induction names as [|n names IH]; [done|].
  rewrite items_cons, widgets_cons.
  destruct (registers env n) as [[item w]|]; simpl; by rewrite ?IH.
Qed.

(** X10. Registration on a fresh widget, when every name either fails
    to load or loads a usable class, returns normally with the signals
    unblocked and the void page still current; the selector holds exactly
    the names that load, in the order given and with repetitions, each
    with its page above the void page; every failing name has its error
    record, in order; and either [backend_changed] is emitted once, for
    the first entry, or, when nothing was registered, the lack of a
    backend is logged and nothing is emitted. *)
Theorem register_backends_lists_loaded env (names : list string) (s : t) :
  fresh s ->
  all_settled env names ->
  exists s',
    register_backends env names s = (Return tt, s') /\
    (_combo s').*2 = filter (fun n => is_Some (registers env n)) names /\
    _stack s' = VoidPage :: (BackendPage <$> widgets env names) /\
    length (_combo s') = length (widgets env names) /\
    stack_currentIndex s' = stack_currentIndex s /\
    signalsBlocked s' = false /\
    logs s' = (logs s ++ errors env names ++
               match items env names with
               | [] => [LogRecord ERROR NoValidBackend]
               | _ => []
               end)%list /\
    emitted s' = (emitted s ++
                  match items env names with
                  | [] => []
                  | (_, n) :: _ => [backend_changed n]
                  end)%list.
Proof.
  intros (Hstack & Hcombo & Hcur & Hblk) Hall.
  eexists. split.
  { apply WorkspaceWidgetClaims.register_backends_settled; [|done].
    rewrite Hstack. unfold count. simpl. lia. }
  destruct s as [stk cur combo ccur blk em lg]. simpl in *. subst.
  rewrite <- items_names.
  pose proof (items_widgets_length env names) as Hlen.
  unfold registered, blockSignals. simpl.
  destruct (items env names) as [|[icon n] its] eqn:E; simpl.
  - unfold log. simpl.
    repeat split; rewrite ?app_nil_r, <- ?app_assoc; done.
  - unfold count. simpl. unfold emit. simpl.
    repeat split; rewrite ?app_nil_r, <- ?app_assoc; done.
Qed.

Lemma register_backends_lists_loaded_witness :
  exists s',
    register_backends example_imports ["sg_sync"; "avalon"; "ftrack"; "avalon"] init
      = (Return tt, s') /\
    (_combo s').*2 = ["avalon"; "avalon"] /\
    emitted s' = [backend_changed "avalon"] /\
    length (logs s') = 2%nat.
Proof.
  destruct (register_backends_lists_loaded example_imports
              ["sg_sync"; "avalon"; "ftrack"; "avalon"] init)
    as (s' & H1 & _).
  - repeat split.
  - apply (bool_decide_unpack _). vm_compute. exact I.
  - exists s'. split; [exact H1|].
    assert (E : register_backends example_imports
                  ["sg_sync"; "avalon"; "ftrack"; "avalon"] init
                = (Return tt, s')) by exact H1.
    vm_compute in E. injection E as <-. repeat split.
Defined.

End WorkspaceWidgetMore.

Module WorkspaceWidgetEntering.
Import WorkspaceWidget Backends WorkspaceWidgetFacts.

Lemma register_each_app P (l1 l2 : list string) (s : t) :
  register_each P (l1 ++ l2) s =
    (register_each P l1;; register_each P l2) s.
Proof.
  revert s. induction l1 as [|n l1 IH]; intros s; simpl.
  - done.
  - unfold bind in *.
    destruct (register_backend P n s) as [[u|e] s1]; [|done].
    by rewrite IH.
Qed.

(** X11. The construction of a backend widget is outside the [try]: when
    the class a name loads raises on construction, [register_backends]
    ends in that exception; the names before it stay registered, the
    names after it are never looked at, nothing is emitted and the
    widget's signals are left blocked. *)
Theorem register_backends_constructor_raises env (pre rest : list string)
    (n : string) (c : widget_cls) (e : exn) (s : t) :
  fresh s ->
  all_settled env pre ->
  _load_backends env !! n = Some (Return c) ->
  construct c = Raise e ->
  exists s',
    register_backends env (pre ++ n :: rest) s = (Raise e, s') /\
    signalsBlocked s' = true /\
    _combo s' = items env pre /\
    emitted s' = emitted s.
Proof.
  intros (Hstack & Hcombo & Hcur & Hblk) Hall Hload Hc.
  unfold register_backends, bind at 1, get.
  destruct (Z.gtb_spec (count (_stack s)) 1) as [H|_].
  { rewrite Hstack in H. unfold count in H. simpl in H. lia. }
  unfold bind at 1, modify at 1. unfold bind at 1.
  rewrite register_each_app. unfold bind at 1.
  rewrite register_each_settled by done.
  simpl. unfold bind at 1, register_backend. rewrite Hload.
  unfold bind at 1, lift_result. rewrite Hc.
  eexists. split; [reflexivity|]. simpl. rewrite Hcombo. done.
Qed.

Lemma register_backends_constructor_raises_witness :
  let broken :=
    mkImports (Return (mkCls None (Raise (ImportError "no display"))))
              (Raise (ImportError "No module named 'shotgun_api3'")) in
  exists s',
    register_backends broken ["sg_sync"; "avalon"; "sg_sync"] init
      = (Raise (ImportError "no display"), s') /\
    signalsBlocked s' = true /\ _combo s' = [] /\ emitted s' = [].
Proof.
  cbv zeta.
  destruct (register_backends_constructor_raises
              (mkImports (Return (mkCls None (Raise (ImportError "no display"))))
                 (Raise (ImportError "No module named 'shotgun_api3'")))
              ["sg_sync"] ["sg_sync"]
              "avalon" (mkCls None (Raise (ImportError "no display")))
              (ImportError "no display") init)
    as (s' & H1 & H2 & H3 & H4).
  - repeat split.
  - apply (bool_decide_unpack _). vm_compute. exact I.
  - reflexivity.
  - reflexivity.
  - exists s'. split; [exact H1|]. split; [exact H2|].
    split; [rewrite H3; vm_compute; reflexivity | exact H4].
Defined.

Lemma findText_first (l : list (string * string)) (n : string) (k : nat) :
  l.*2 !! k = Some n ->
  (forall j, (j < k)%nat -> l.*2 !! j ≠ Some n) ->
  findText l n = Z.of_nat k.
Proof.
  revert k. induction l as [|[icon t] l IH]; intros k Hk Hfirst; [done|].
  simpl. destruct (decide (t = n)) as [->|Hne].
  - destruct k as [|k]; [done|]. exfalso. apply (Hfirst 0%nat); [lia|done].
  - destruct k as [|k]; [simpl in Hk; congruence|]. simpl in Hk.
    rewrite (IH k Hk).
    + destruct (Z.ltb_spec (Z.of_nat k) 0); lia.
    + intros j Hj. apply (Hfirst (S j)). lia.
Qed.

(** The first selector entry of a registered name, and the page that
    goes with it. *)
Lemma registered_entry env (names : list string) (n : string) item w :
  registers env n = Some (item, w) ->
  n ∈ names ->
  exists k,
    (items env names).*2 !! k = Some n /\
    (forall j, (j < k)%nat -> (items env names).*2 !! j ≠ Some n) /\
    widgets env names !! k = Some w.
Proof.
  intros Hr. unfold items, widgets.
  induction names as [|m names IH]; intros Hin; [by apply elem_of_nil in Hin|].
  simpl. destruct (decide (m = n)) as [->|Hne].
  - rewrite Hr. simpl. exists 0%nat.
    destruct (WorkspaceWidgetMore.registers_text _ _ _ _ Hr) as [-> _].
    split; [done|]. split; [lia|done].
  - apply elem_of_cons in Hin as [->|Hin]; [done|].
    destruct (IH Hin) as (k & H1 & H2 & H3).
    destruct (registers env m) as [[item' w']|] eqn:Em; simpl.
    + exists (S k). split; [done|]. split; [|done].
      intros [|j] Hj; simpl.
      * destruct (WorkspaceWidgetMore.registers_text _ _ _ _ Em) as [-> _].
        congruence.
      * apply H2. lia.
    + exists k. done.
Qed.

(** Entering the root scope of a selector entry: the page above the
    void page at the entry's index becomes current and its widget is
    entered, told whether the page changed. *)
Lemma on_workspace_entered_entry
    (enter : backend_widget -> scope -> bool -> result backend_widget)
    (s : t) (n : string) (k : nat) (w : backend_widget) :
  (_combo s).*2 !! k = Some n ->
  (forall j, (j < k)%nat -> (_combo s).*2 !! j ≠ Some n) ->
  _stack s !! S k = Some (BackendPage w) ->
  enter_workspace w = Callable ->
  let changed := negb (Z.of_nat (S k) =? stack_currentIndex s) in
  let s1 := set_stack_currentIndex (Z.of_nat (S k)) s in
  on_workspace_entered enter (Scope n None) s =
    match enter w (Scope n None) changed with
    | Return w' => (Return tt, set_stack (<[S k := BackendPage w']> (_stack s)) s1)
    | Raise e => (Raise e, s1)
    end.
Proof.
  intros Hk Hfirst Hpage Hcall. cbv zeta.
  destruct s as [stk cur combo ccur blk em lg].
  cbn [_combo _stack stack_currentIndex] in *.
  assert (Hft : findText combo n = Z.of_nat k) by (by apply findText_first).
  assert (Hidx : Z.of_nat k + 1 = Z.of_nat (S k)) by lia.
  remember (Z.of_nat (S k)) as idx eqn:Eidx.
  assert (Hw : forall c, widget (mk stk c combo ccur blk em lg) idx
                    = Some (S k, BackendPage w)).
  { intros c. unfold widget. cbn [_stack].
    destruct (Z.ltb_spec idx 0) as [|_]; [lia|].
    replace (Z.to_nat idx) with (S k) by lia. rewrite Hpage. done. }
  unfold on_workspace_entered, bind, get, modify, ret.
  simpl (upstream _). simpl (name _). cbn [_combo]. cbv beta iota.
  rewrite Hft.
  destruct (Z.ltb_spec (Z.of_nat k) 0) as [|_]; [lia|]. rewrite Hidx.
  cbn [stack_currentIndex].
  destruct (Z.eqb_spec idx cur) as [<-|Hne]; cbn [negb].
  - unfold currentWidget. cbn [stack_currentIndex]. rewrite Hw.
    unfold call_enter_workspace. rewrite Hcall.
    unfold bind, lift_result, modify, set_stack_currentIndex, set_stack.
    cbn. by destruct (enter w (Scope n None) false).
  - unfold setCurrentIndex. rewrite Hw.
    unfold currentWidget, set_stack_currentIndex.
    cbn [stack_currentIndex _stack _combo combo_currentIndex signalsBlocked
           emitted logs].
    rewrite Hw. unfold call_enter_workspace. rewrite Hcall.
    unfold bind, lift_result, modify, set_stack. cbn.
    by destruct (enter w (Scope n None) true).
Qed.

Lemma registered_shape env (names : list string) (s : t) :
  fresh s ->
  all_settled env names ->
  exists s',
    register_backends env names s = (Return tt, s') /\
    _combo s' = items env names /\
    _stack s' = VoidPage :: (BackendPage <$> widgets env names) /\
    stack_currentIndex s' = stack_currentIndex s.
Proof.
  intros (Hstack & Hcombo & Hcur & Hblk) Hall.
  eexists. split.
  { apply WorkspaceWidgetClaims.register_backends_settled; [|done].
    rewrite Hstack. unfold count. simpl. lia. }
  destruct s as [stk cur combo ccur blk em lg]. simpl in *. subst.
  cbv zeta. destruct (negb _); unfold emit, log; simpl; done.
Qed.

(** X12. After registration on a fresh widget, entering the root scope
    named after a backend that registered makes that backend's page the
    current one (the page above the void page at the index of the name's
    first selector entry) and enters its widget with [backend_changed]
    true; the widget is replaced by what the call leaves, or the call's
    exception comes out with the page already switched.  Nothing is
    logged. *)
Theorem enter_registered_backend
    (enter : backend_widget -> scope -> bool -> result backend_widget)
    env (names : list string) (n : string) item (w : backend_widget) (s : t) :
  fresh s ->
  stack_currentIndex s = 0 ->
  all_settled env names ->
  n ∈ names ->
  registers env n = Some (item, w) ->
  exists s1 k,
    register_backends env names s = (Return tt, s1) /\
    (_combo s1).*2 !! k = Some n /\
    _stack s1 !! S k = Some (BackendPage w) /\
    on_workspace_entered enter (Scope n None) s1 =
      match enter w (Scope n None) true with
      | Return w' =>
          (Return tt,
           set_stack (<[S k := BackendPage w']> (_stack s1))
             (set_stack_currentIndex (Z.of_nat (S k)) s1))
      | Raise e => (Raise e, set_stack_currentIndex (Z.of_nat (S k)) s1)
      end.
Proof.
  intros Hf H0 Hall Hin Hr.
  destruct (registered_shape env names s Hf Hall) as (s1 & H1 & Hc & Hs & Hi).
  destruct (registered_entry env names n item w Hr Hin) as (k & Hk & Hfirst & Hw).
  exists s1, k. split; [exact H1|].
  assert (Hpage : _stack s1 !! S k = Some (BackendPage w)).
  { rewrite Hs. simpl. rewrite list_lookup_fmap, Hw. done. }
  rewrite Hc. split; [exact Hk|]. split; [exact Hpage|].
  pose proof (on_workspace_entered_entry enter s1 n k w) as He.
  rewrite Hc in He. specialize (He Hk Hfirst Hpage).
  cbv zeta in He. rewrite Hi, H0 in He.
  destruct (WorkspaceWidgetMore.registers_text _ _ _ _ Hr) as [_ Hcall].
  specialize (He Hcall).
  destruct (Z.eqb_spec (Z.of_nat (S k)) 0) as [|_]; [lia|]. exact He.
Qed.

Lemma enter_registered_backend_witness :
  exists s1,
    register_backends example_imports ["x"; "avalon"] init = (Return tt, s1) /\
    on_workspace_entered (fun w _ _ => Return w) (Scope "avalon" None) s1 =
      (Return tt, set_stack_currentIndex 1 s1).
Proof.
  destruct (enter_registered_backend (fun w _ _ => Return w) example_imports
              ["x"; "avalon"] "avalon" (":/icons/avalon.svg", "avalon")
              example_widget init)
    as (s1 & k & H1 & _ & _ & _).
  - repeat split.
  - reflexivity.
  - apply (bool_decide_unpack _). vm_compute. exact I.
  - apply (bool_decide_unpack _). vm_compute. exact I.
  - reflexivity.
  - exists s1. split; [exact H1|].
    assert (E : register_backends example_imports ["x"; "avalon"] init
                = (Return tt, s1)) by exact H1.
    vm_compute in E. injection E as <-. reflexivity.
Defined.

(** X13. Entering a scope that has an upstream never touches the
    selection of the backend: whatever the current page's widget does, the
    current page index, the selector, the number of pages, the log and the
    emitted signals are those from before. *)
Theorem on_workspace_entered_non_root
    (enter : backend_widget -> scope -> bool -> result backend_widget)
    (s : t) (n : string) (up : scope) :
  let s' := snd (on_workspace_entered enter (Scope n (Some up)) s) in
  stack_currentIndex s' = stack_currentIndex s /\
  _combo s' = _combo s /\ combo_currentIndex s' = combo_currentIndex s /\
  length (_stack s') = length (_stack s) /\
  logs s' = logs s /\ emitted s' = emitted s.
Proof.
  cbv zeta. unfold on_workspace_entered, bind, get, ret. simpl.
  unfold call_enter_workspace.
  destruct (currentWidget s) as [[i [|w]]|]; [done| |done].
  destruct (enter_workspace w); [done|done|].
  unfold bind, lift_result, modify.
  destruct (enter w _ false) as [w'|e]; [|done].
  simpl. rewrite length_insert. done.
Qed.

End WorkspaceWidgetEntering.
